(** * TechDocsAddonBuilder: the test harness of techdocs-addons

    A shallow embedding of
    [packages/techdocs-addons/src/test-utils/test-utils.tsx]:
    the module-level constants, the fluent configuration methods, [build],
    [render] and [renderWithEffects], with the state the module mutates
    made explicit. *)

From stdpp Require Import gmap strings list fin_maps.

Open Scope string_scope.
Open Scope list_scope.
Set Warnings "-register-all".

(** ** JavaScript values

    [entity] and [metadata] are typed [any].  The fragment of JavaScript
    values that fixtures are made of: [undefined], [null], booleans,
    integral numbers, strings and plain objects (own properties only). *)
Module Js.

Inductive value : Type :=
| Undefined
| Null
| Bool (b : bool)
| Number (z : Z)
| Str (s : string)
| Object (fields : gmap string value).

(** ToBoolean.  The falsy values of the fragment are [undefined], [null],
    [false], [0] and the empty string; an object is always truthy. *)
Definition truthy (v : value) : bool :=
  match v with
  | Undefined | Null => false
  | Bool b => b
  | Number z => negb (z =? 0)%Z
  | Str s => negb (String.eqb s EmptyString)
  | Object _ => true
  end.

(** [a || b]: the left operand when it is truthy, else the right one. *)
Definition or (a b : value) : value := if truthy a then a else b.

(** [v?.p]: [undefined] on [undefined] and [null]; the own property [p]
    of an object, [undefined] when it has none.  Primitives are boxed by
    the access; none of the names [build] reads ([metadata], [namespace],
    [kind], [name]) is a property of a boxed boolean, number or string. *)
Definition get (v : value) (p : string) : value :=
  match v with
  | Object fields => default Undefined (fields !! p)
  | _ => Undefined
  end.

(** An object literal [{ k1: v1, ..., kn: vn }]: later keys override. *)
Definition obj (kvs : list (string * value)) : value :=
  Object (foldl (λ m kv, <[kv.1 := kv.2]> m) ∅ kvs).

End Js.

Notation "a ||| b" := (Js.or a b) (at level 50, left associativity).
Notation "v ?. p" := (Js.get v p) (at level 2, p at level 0, left associativity, format "v ?. p").


(** ** React elements

    The elements the module builds or is handed: host (HTML) elements,
    text, elements of user components, and the components [build] nests.
    An [apis] prop holds a JavaScript array, by identity. *)

Abbreviation loc := positive (only parsing).

(** API refs and their stub implementations are objects; the module only
    compares refs, with [Array.prototype.includes], that is by identity. *)
Abbreviation ApiRef := nat (only parsing).
Abbreviation ApiImpl := nat (only parsing).
Abbreviation Apis := (list (ApiRef * ApiImpl)) (only parsing).

Inductive ReactElement : Type :=
| Host (tag : string) (attrs : list (string * string))
       (children : list ReactElement)
| Text (s : string)
| Component (name : string)
| Fragment (key : option nat) (children : list ReactElement)
| TechDocsAddons (children : list ReactElement)
| Route (path : string) (element : option ReactElement)
        (children : list ReactElement)
| Routes (children : list ReactElement)
| TestApiProvider (apis : loc) (children : list ReactElement)
| wrapInTestApp (child : ReactElement).

(** ** Options and module constants *)

Record TechDocsAddonBuilderOptions : Type := {
  dom : ReactElement;
  entity : Js.value;
  metadata : Js.value;
  componentId : string;
  readerPage : option ReactElement;
  apis : loc;
  path : string
}.

Definition defaultMetadata : Js.value :=
  Js.obj [("site_name", Js.Str "Tech Docs");
          ("site_description", Js.Str "Tech Docs")].

Definition defaultEntity : Js.value :=
  Js.obj [("kind", Js.Str "Component");
          ("metadata", Js.obj [("namespace", Js.Str "default");
                               ("name", Js.Str "docs")])].

Definition defaultDom : ReactElement :=
  Host "html" [("lang", "en")]
    [Host "head" [] [];
     Host "body" []
       [Host "div" [("data-md-component", "container")]
          [Host "div" [("data-md-component", "navigation")] [];
           Host "div" [("data-md-component", "toc")] [];
           Host "div" [("data-md-component", "main")] []]]].

(** ** The mocked hooks

    Each is a [jest.fn()]: it returns [undefined] ([None]) until
    [mockReturnValue] gives it a value. *)

Record HookResult : Type := {
  loading : bool;
  error : Js.value;
  value : Js.value
}.

(** The [html] element handed to [useTechDocsReaderDom]: one created by
    [document.createElement('html')] whose [innerHTML] is the static
    markup of a React element. *)
Record ReaderDom : Type := { innerHTML_of : ReactElement }.

Record Mocks : Type := {
  useTechDocsReaderDom : option ReaderDom;
  useParams : option (gmap string Js.value);
  useTechDocsMetadata : option HookResult;
  useEntityMetadata : option HookResult
}.

(** ** Module state

    What the module can mutate: the one options object it ever creates,
    the constant [defaultOptions]; the arrays of api pairs, by identity;
    the mocked hooks. *)
Record State : Type := {
  defaultOptions : TechDocsAddonBuilderOptions;
  arrays : gmap loc Apis;
  mocks : Mocks
}.

Definition defaultOptions_apis : loc := 1%positive.

(** The state once the module is loaded. *)
Definition loaded : State := {|
  defaultOptions := {|
    dom := Fragment None [];
    entity := Js.obj [];
    metadata := Js.obj [];
    componentId := "docs";
    readerPage := None;
    apis := defaultOptions_apis;
    path := EmptyString |};
  arrays := {[ defaultOptions_apis := [] ]};
  mocks := {|
    useTechDocsReaderDom := None;
    useParams := None;
    useTechDocsMetadata := None;
    useEntityMetadata := None |}
|}.

(** A reference to an options object.  No options object is created
    besides the constant, so the constant is all a reference can name. *)
Inductive OptionsRef : Type := ref_defaultOptions.

Definition deref (r : OptionsRef) (σ : State) : TechDocsAddonBuilderOptions :=
  match r with ref_defaultOptions => defaultOptions σ end.

Definition assign (r : OptionsRef) (o : TechDocsAddonBuilderOptions)
    (σ : State) : State :=
  match r with
  | ref_defaultOptions =>
      {| defaultOptions := o; arrays := arrays σ; mocks := mocks σ |}
  end.

(** [new Array]: a location no array lives at, and the store with the
    array at it. *)
Definition alloc (a : Apis) (σ : State) : loc * State :=
  let l := fresh (base.dom (arrays σ)) in
  (l, {| defaultOptions := defaultOptions σ;
         arrays := <[l := a]> (arrays σ);
         mocks := mocks σ |}).

Definition array_at (l : loc) (σ : State) : Apis := arrays σ !!! l.

(** ** The builder *)

Record TechDocsAddonBuilder : Type := {
  options : OptionsRef;
  addons : list ReactElement
}.

(** The constructor, with the field initialiser
    [private options = defaultOptions]: the field takes the reference to
    the constant; nothing is copied. *)
Definition new_TechDocsAddonBuilder (addons : list ReactElement)
    : TechDocsAddonBuilder :=
  {| options := ref_defaultOptions; addons := addons |}.

Definition buildAddonsInTechDocs (addons : list ReactElement)
    : TechDocsAddonBuilder :=
  new_TechDocsAddonBuilder addons.

(** The configuration methods return [this]; the model gives the state
    they leave, and a chain is a composition on the same builder. *)

Definition withApis (this : TechDocsAddonBuilder) (new_apis : Apis)
    (σ : State) : State :=
  let o := deref (options this) σ in
  let refs := new_apis.*1 in
  let '(l, σ) :=
    alloc (filter (λ e, e.1 ∉ refs) (array_at (apis o) σ) ++ new_apis) σ in
  assign (options this)
    {| dom := dom o; entity := entity o; metadata := metadata o;
       componentId := componentId o; readerPage := readerPage o;
       apis := l; path := path o |} σ.

Definition withDom (this : TechDocsAddonBuilder) (d : ReactElement)
    (σ : State) : State :=
  let o := deref (options this) σ in
  assign (options this)
    {| dom := d; entity := entity o; metadata := metadata o;
       componentId := componentId o; readerPage := readerPage o;
       apis := apis o; path := path o |} σ.

Definition withMetadata (this : TechDocsAddonBuilder) (m : Js.value)
    (σ : State) : State :=
  let o := deref (options this) σ in
  assign (options this)
    {| dom := dom o; entity := entity o; metadata := m;
       componentId := componentId o; readerPage := readerPage o;
       apis := apis o; path := path o |} σ.

Definition withEntity (this : TechDocsAddonBuilder) (e : Js.value)
    (σ : State) : State :=
  let o := deref (options this) σ in
  assign (options this)
    {| dom := dom o; entity := e; metadata := metadata o;
       componentId := componentId o; readerPage := readerPage o;
       apis := apis o; path := path o |} σ.

Definition withReaderPage (this : TechDocsAddonBuilder) (r : ReactElement)
    (σ : State) : State :=
  let o := deref (options this) σ in
  assign (options this)
    {| dom := dom o; entity := entity o; metadata := metadata o;
       componentId := componentId o; readerPage := Some r;
       apis := apis o; path := path o |} σ.

Definition atPath (this : TechDocsAddonBuilder) (p : string)
    (σ : State) : State :=
  let o := deref (options this) σ in
  assign (options this)
    {| dom := dom o; entity := entity o; metadata := metadata o;
       componentId := componentId o; readerPage := readerPage o;
       apis := apis o; path := p |} σ.

(** *** build *)

(** The three fields of [entityName], each with its own [||]. *)
Definition entityName_namespace (e : Js.value) : Js.value :=
  e?."metadata"?."namespace" ||| defaultEntity?."metadata"?."namespace".

Definition entityName_kind (e : Js.value) : Js.value :=
  e?."kind" ||| defaultEntity?."kind".

Definition entityName_name (e : Js.value) : Js.value :=
  e?."metadata"?."name" ||| defaultEntity?."metadata"?."name".

Definition entityName (e : Js.value) : gmap string Js.value :=
  <["name" := entityName_name e]>
    (<["kind" := entityName_kind e]>
       (<["namespace" := entityName_namespace e]> ∅)).

(** [d || defaultDom] on an element: an element is an object, so the
    left operand is the result. *)
Definition or_element (d fallback : ReactElement) : ReactElement := d.

Definition mockReturnValues (dom : ReaderDom) (params : gmap string Js.value)
    (techDocsMetadata entityMetadata : HookResult) (σ : State) : State :=
  {| defaultOptions := defaultOptions σ;
     arrays := arrays σ;
     mocks := {| useTechDocsReaderDom := Some dom;
                 useParams := Some params;
                 useTechDocsMetadata := Some techDocsMetadata;
                 useEntityMetadata := Some entityMetadata |} |}.

Definition build (this : TechDocsAddonBuilder) (σ : State)
    : ReactElement * State :=
  let o := deref (options this) σ in
  let '(apis_copy, σ) := alloc (array_at (apis o) σ) σ in
  let techDocsMetadata :=
    {| loading := false; error := Js.Undefined;
       value := metadata o ||| defaultMetadata |} in
  let entityMetadata :=
    {| loading := false; error := Js.Undefined;
       value := entity o ||| defaultEntity |} in
  let dom := {| innerHTML_of := or_element (dom o) defaultDom |} in
  let params := <["*" := Js.Str (path o)]> (entityName (entity o)) in
  (wrapInTestApp
     (TestApiProvider apis_copy
        [Routes
           [Route "*" (readerPage o)
              [TechDocsAddons
                 (imap (λ index addon, Fragment (Some index) [addon])
                       (addons this))]]]),
   mockReturnValues dom params techDocsMetadata entityMetadata σ).

(** *** render

    The document after React has mounted a tree is the work of React and
    of Testing Library's [render]; it is a parameter here, as the
    [document.body] that [screen] is bound to.  A DOM element carries
    the value of its [data-testid] attribute, if it has one, and its
    shadow root, by identity, if one is attached. *)

Inductive Node : Type :=
| Element (tag : string) (testid : option string) (shadowRoot : option nat)
          (childNodes : list Node).

Definition node_shadowRoot (n : Node) : option nat :=
  match n with Element _ _ sr _ => sr end.

(** Testing Library's default normalizer,
    [text.trim().replace(/\s+/g, ' ')], on strings in UTF-8.  The white
    space of [trim] and of [\s] is U+0009 to U+000D, U+0020, U+00A0,
    U+1680, U+2000 to U+200A, U+2028, U+2029, U+202F, U+205F, U+3000
    and U+FEFF. *)

Definition is_space3 (b1 b2 b3 : nat) : bool :=
  (Nat.eqb b1 225 && Nat.eqb b2 154 && Nat.eqb b3 128)
  || (Nat.eqb b1 226 && Nat.eqb b2 128
      && ((Nat.leb 128 b3 && Nat.leb b3 138)
          || Nat.eqb b3 168 || Nat.eqb b3 169 || Nat.eqb b3 175))
  || (Nat.eqb b1 226 && Nat.eqb b2 129 && Nat.eqb b3 159)
  || (Nat.eqb b1 227 && Nat.eqb b2 128 && Nat.eqb b3 128)
  || (Nat.eqb b1 239 && Nat.eqb b2 187 && Nat.eqb b3 191).

(** The number of bytes of the white-space character a string starts
    with, [0] when it starts with none. *)
Definition space_width (s : string) : nat :=
  match s with
  | String c1 r1 =>
      let b1 := Ascii.nat_of_ascii c1 in
      if (Nat.leb 9 b1 && Nat.leb b1 13) || Nat.eqb b1 32 then 1
      else
        match r1 with
        | String c2 r2 =>
            let b2 := Ascii.nat_of_ascii c2 in
            if Nat.eqb b1 194 && Nat.eqb b2 160 then 2
            else
              match r2 with
              | String c3 _ =>
                  if is_space3 b1 b2 (Ascii.nat_of_ascii c3) then 3 else 0
              | EmptyString => 0
              end
        | EmptyString => 0
        end
  | EmptyString => 0
  end.

(** One pass over the bytes: [skip] bytes are left of a white-space
    character already seen, [pending] says white space was seen since
    the last byte kept, [started] that a byte was kept.  A run of white
    space becomes one space between kept bytes and nothing at either
    end. *)
Fixpoint normalize_from (started pending : bool) (skip : nat) (s : string)
    : string :=
  match s with
  | EmptyString => EmptyString
  | String c rest =>
      match skip with
      | S k => normalize_from started pending k rest
      | O =>
          match space_width s with
          | O =>
              let kept := String c (normalize_from true false 0 rest) in
              if started && pending then String Ascii.Space kept else kept
          | S k => normalize_from started true k rest
          end
      end
  end.

Definition normalize (s : string) : string := normalize_from false false 0 s.

(** The elements among a node and its descendants, in document order,
    whose [data-testid], normalized, is the identifier. *)
Fixpoint matching_elements (id : string) (n : Node) : list Node :=
  match n with
  | Element _ t _ kids =>
      (if decide (normalize <$> t = Some id) then [n] else [])
      ++ flat_map (matching_elements id) kids
  end.

(** [queryAllByAttribute] on a container: its descendants that match,
    as [container.querySelectorAll] finds them, the container itself
    left out. *)
Definition queryAllByTestId (id : string) (container : Node) : list Node :=
  match container with
  | Element _ _ _ kids => flat_map (matching_elements id) kids
  end.

Inductive completion (A : Type) : Type :=
| Return (a : A)
| Throw (message : string).
Arguments Return {A} a.
Arguments Throw {A} message.

(** Testing Library's [getBy*] queries return the one matching element
    and throw when there is none, or more than one.  [screen] queries
    [document.body]. *)
Definition getByTestId (document : Node) (id : string) : completion Node :=
  match queryAllByTestId id document with
  | [] => Throw "Unable to find an element by data-testid"
  | [n] => Return n
  | _ => Throw "Found multiple elements by data-testid"
  end.

(** [{ ...screen, shadowRoot }]: the queries, bound to the document, and
    the shadow root, [null] as [None]. *)
Record Surface : Type := {
  screen : Node;
  surface_shadowRoot : option nat
}.

Section Render.

Variable mount : ReactElement → State → Node.

Definition render (this : TechDocsAddonBuilder) (σ : State)
    : completion Surface * State :=
  let '(tree, σ) := build this σ in
  let document := mount tree σ in
  match getByTestId document "techdocs-native-shadowroot" with
  | Throw message => (Throw message, σ)
  | Return shadowHost =>
      (Return {| screen := document;
                 surface_shadowRoot := node_shadowRoot shadowHost |}, σ)
  end.

End Render.

(** ** Observations *)

(** The api pairs a builder has registered: the array its options hold. *)
Definition registered (this : TechDocsAddonBuilder) (σ : State) : Apis :=
  array_at (apis (deref (options this) σ)) σ.

(** What the route-parameter hook returns once [build] has run. *)
Definition params_after_build (this : TechDocsAddonBuilder) (σ : State)
    : option (gmap string Js.value) :=
  useParams (mocks (build this σ).2).

(** The [apis] prop of a built tree, and the children of its
    [TechDocsAddons] container. *)
Definition tree_apis (tree : ReactElement) : option loc :=
  match tree with
  | wrapInTestApp (TestApiProvider l _) => Some l
  | _ => None
  end.

Definition hosted (tree : ReactElement) : option (list ReactElement) :=
  match tree with
  | wrapInTestApp
      (TestApiProvider _ [Routes [Route _ _ [TechDocsAddons kids]]]) =>
      Some kids
  | _ => None
  end.

Definition fragment_children (e : ReactElement) : list ReactElement :=
  match e with
  | Fragment _ kids => kids
  | _ => []
  end.

(** Own property of an object, as an option: [None] when it is missing. *)
Definition own (v : Js.value) (p : string) : option Js.value :=
  match v with
  | Js.Object fields => fields !! p
  | _ => None
  end.

(** ** Programs: sequences of calls on builders *)

Inductive call : Type :=
| call_withApis (new_apis : Apis)
| call_withDom (d : ReactElement)
| call_withMetadata (m : Js.value)
| call_withEntity (e : Js.value)
| call_withReaderPage (r : ReactElement)
| call_atPath (p : string)
| call_build.

Definition exec (c : TechDocsAddonBuilder * call) (σ : State) : State :=
  let this := c.1 in
  match c.2 with
  | call_withApis a => withApis this a σ
  | call_withDom d => withDom this d σ
  | call_withMetadata m => withMetadata this m σ
  | call_withEntity e => withEntity this e σ
  | call_withReaderPage r => withReaderPage this r σ
  | call_atPath p => atPath this p σ
  | call_build => (build this σ).2
  end.

Definition run (calls : list (TechDocsAddonBuilder * call)) (σ : State)
    : State :=
  foldl (λ σ c, exec c σ) σ calls.

(** ** The entity identity, field by field *)

(** What a fixture supplies for each of the three fields, [None] when the
    field is missing. *)
Definition supplied_namespace (e : Js.value) : option Js.value :=
  own e "metadata" ≫= λ m, own m "namespace".

Definition supplied_kind (e : Js.value) : option Js.value := own e "kind".

Definition supplied_name (e : Js.value) : option Js.value :=
  own e "metadata" ≫= λ m, own m "name".

(** A field that keeps whatever value is supplied and takes the default
    only when it is missing. *)
Definition kept_or_default (supplied : option Js.value) (dflt : Js.value)
    : Js.value :=
  default dflt supplied.

(** A field that keeps a supplied truthy value and takes the default when
    it is missing or falsy. *)
Definition truthy_or_default (supplied : option Js.value) (dflt : Js.value)
    : Js.value :=
  match supplied with
  | Some v => if Js.truthy v then v else dflt
  | None => dflt
  end.

(** The identity [build] hands to the route-parameter hook for an entity
    given to [withEntity], against a per-field rule. *)
Definition identity_follows
    (rule : option Js.value → Js.value → Js.value)
    (this : TechDocsAddonBuilder) (e : Js.value) (σ : State) : Prop :=
  ∃ params,
    params_after_build this (withEntity this e σ) = Some params
    ∧ params !! "namespace"
      = Some (rule (supplied_namespace e) (Js.Str "default"))
    ∧ params !! "kind" = Some (rule (supplied_kind e) (Js.Str "Component"))
    ∧ params !! "name" = Some (rule (supplied_name e) (Js.Str "docs")).

(** ** Fixtures *)

(** An entity that supplies an empty kind and a name, and no namespace. *)
Definition entity_empty_kind : Js.value :=
  Js.obj [("kind", Js.Str EmptyString);
          ("metadata", Js.obj [("name", Js.Str "x")])].

(** An entity whose three fields are present and empty. *)
Definition entity_all_empty : Js.value :=
  Js.obj [("kind", Js.Str EmptyString);
          ("metadata", Js.obj [("namespace", Js.Str EmptyString);
                               ("name", Js.Str EmptyString)])].

(** A mounted document with no element carrying a test identifier. *)
Definition document_without_host : Node :=
  Element "body" None None [Element "div" None None []].

Definition mount_without_host (tree : ReactElement) (σ : State) : Node :=
  document_without_host.

(** ** renderWithEffects

    [await act(async () => { this.render(); })], then the same query
    again.  An exception of [render] inside the callback rejects the
    promise of [act], and the [await] throws it again; the outcome of the
    promise the method returns is a [completion].  The document once
    [act] has flushed the effects of the mounted tree is a parameter, as
    the mounted one is. *)

Section RenderWithEffects.

Variable mount : ReactElement → State → Node.
Variable settled : ReactElement → State → Node.


End RenderWithEffects.

(** ** Reading programs *)

(** The argument of the last call of a program that a selector picks. *)
Definition last_arg {A : Type} (sel : call → option A)
    (calls : list (TechDocsAddonBuilder * call)) : option A :=
  last (omap (λ c, sel c.2) calls).

Definition arg_withDom (c : call) : option ReactElement :=
  match c with call_withDom d => Some d | _ => None end.

Definition arg_withMetadata (c : call) : option Js.value :=
  match c with call_withMetadata m => Some m | _ => None end.

Definition arg_withEntity (c : call) : option Js.value :=
  match c with call_withEntity e => Some e | _ => None end.

Definition arg_withReaderPage (c : call) : option ReactElement :=
  match c with call_withReaderPage r => Some r | _ => None end.

Definition arg_atPath (c : call) : option string :=
  match c with call_atPath p => Some p | _ => None end.

(** The field of the options a call assigns, [None] for [build]. *)
Inductive field : Type :=
| field_dom | field_entity | field_metadata | field_readerPage
| field_apis | field_path.

Definition assigns (c : call) : option field :=
  match c with
  | call_withApis _ => Some field_apis
  | call_withDom _ => Some field_dom
  | call_withMetadata _ => Some field_metadata
  | call_withEntity _ => Some field_entity
  | call_withReaderPage _ => Some field_readerPage
  | call_atPath _ => Some field_path
  | call_build => None
  end.

(** A call that, when it is [withApis], passes pairwise distinct refs. *)
Definition distinct_refs (c : call) : Prop :=
  match c with
  | call_withApis a => NoDup a.*1
  | _ => True
  end.




(** ** The array store *)

Section Store.

Implicit Types (σ : State) (a : Apis) (l : loc).

Lemma alloc_fresh a σ : (alloc a σ).1 ∉ base.dom (arrays σ).
Proof. apply is_fresh. Qed.

Lemma array_at_alloc a σ : array_at (alloc a σ).1 (alloc a σ).2 = a.
Proof. unfold array_at, alloc; simpl. apply lookup_total_insert_eq. Qed.

Lemma array_at_alloc_ne a σ l :
  l ≠ (alloc a σ).1 → array_at l (alloc a σ).2 = array_at l σ.
Proof.
  intros Hne. unfold array_at, alloc; simpl.
  by apply lookup_total_insert_ne.
Qed.

Lemma alloc_allocated a σ :
  (alloc a σ).1 ∈ base.dom (arrays (alloc a σ).2).
Proof. unfold alloc; simpl. rewrite dom_insert_L. set_solver. Qed.

Lemma alloc_defaultOptions a σ :
  defaultOptions (alloc a σ).2 = defaultOptions σ.
Proof. reflexivity. Qed.

End Store.

Lemma registered_withApis this (A : Apis) σ :
  registered this (withApis this A σ)
  = filter (λ e, e.1 ∉ A.*1) (registered this σ) ++ A.
Proof.
  destruct this as [[] ads]. unfold registered, withApis; simpl.
  unfold array_at; simpl. by rewrite lookup_total_insert_eq.
Qed.

Lemma builders_share_options ads1 ads2 :
  options (buildAddonsInTechDocs ads1) = options (buildAddonsInTechDocs ads2).
Proof. reflexivity. Qed.

(** ** Configuration calls and the shared options object *)

(** C1 (refuted on the code).  Builders do not have options of their
    own: the constructor stores the reference to the module constant
    [defaultOptions] in each of them.  With two distinct builders on the
    freshly loaded module, [atPath('/foo')] on the first changes the path
    the second observes from the empty string to ['/foo']; a builder
    constructed after the call observes ['/foo'] too. *)
Theorem atPath_seen_by_other_builders :
  let b1 := buildAddonsInTechDocs [] in
  let b2 := buildAddonsInTechDocs [Component "GiveFeedback"] in
  let σ := atPath b1 "/foo" loaded in
  let b3 := buildAddonsInTechDocs [Component "ReportIssue"] in
  b1 ≠ b2
  ∧ path (deref (options b2) loaded) = EmptyString
  ∧ path (deref (options b2) σ) = "/foo"
  ∧ path (deref (options b3) σ) = "/foo"
  ∧ ∀ ads ads' c σ,
      deref (options (buildAddonsInTechDocs ads'))
        (exec (buildAddonsInTechDocs ads, c) σ)
      = deref (options (buildAddonsInTechDocs ads))
          (exec (buildAddonsInTechDocs ads, c) σ).
Proof. repeat split; discriminate. Qed.

(** ** withApis *)

(** C4.  After [withApis(A)] then [withApis(B)] the registered pairs are:
    the earlier pairs whose ref is in neither [A] nor [B], then the pairs
    of [A] whose ref is not in [B], in the order of [A], then [B] as it
    was given.  A ref of [B] is registered with the stubs of [B] only. *)
Theorem withApis_twice this (A B : Apis) σ :
  let σ' := withApis this B (withApis this A σ) in
  let only_A := filter (λ e, e.1 ∉ B.*1) A in
  registered this σ'
  = filter (λ e, e.1 ∉ B.*1) (filter (λ e, e.1 ∉ A.*1) (registered this σ))
    ++ only_A ++ B
  ∧ (∀ e, e ∈ registered this σ' → e.1 ∈ B.*1 → e ∈ B)
  ∧ (∀ e, e ∈ only_A ↔ e ∈ A ∧ e.1 ∉ B.*1)
  ∧ only_A `sublist_of` A.
Proof.
  cbv zeta. rewrite !registered_withApis, filter_app, <- app_assoc.
  split; [done|]. split; [|split].
  - intros e He HB.
    rewrite !elem_of_app, !list_elem_of_filter in He.
    destruct He as [[? _]|[[? _]|?]]; done.
  - intros e. rewrite list_elem_of_filter. tauto.
  - apply sublist_filter.
Qed.

(** ** build *)

Lemma build_tree this σ :
  (build this σ).1
  = wrapInTestApp
      (TestApiProvider (alloc (registered this σ) σ).1
         [Routes
            [Route "*" (readerPage (deref (options this) σ))
               [TechDocsAddons
                  (imap (λ index addon, Fragment (Some index) [addon])
                        (addons this))]]]).
Proof. reflexivity. Qed.

Lemma build_arrays this σ :
  arrays (build this σ).2 = arrays (alloc (registered this σ) σ).2.
Proof. reflexivity. Qed.

Lemma build_options this σ that :
  deref (options that) (build this σ).2 = deref (options that) σ.
Proof. by destruct that as [[] ?]. Qed.

Lemma build_useParams this σ :
  params_after_build this σ
  = Some (<["*" := Js.Str (path (deref (options this) σ))]>
            (entityName (entity (deref (options this) σ)))).
Proof. reflexivity. Qed.

Lemma unwrap_imap_fragments (l : list ReactElement) (f : nat → nat) :
  flat_map fragment_children
    (imap (λ index addon, Fragment (Some (f index)) [addon]) l) = l.
Proof.
  revert f. induction l as [|a l IH]; intros f; simpl; [done|].
  f_equal. apply (IH (f ∘ S)).
Qed.

(** C8.  The children of the [TechDocsAddons] container of the built tree
    are as many as the addons; the child at index [i] is a fragment with
    key [i] around the addon at index [i], and nothing else; unwrapping
    the fragments gives back the addon list, repeated entries included. *)
Theorem build_hosts_addons_in_order (ads : list ReactElement) σ :
  ∃ kids,
    hosted (build (buildAddonsInTechDocs ads) σ).1 = Some kids
    ∧ length kids = length ads
    ∧ (∀ i, kids !! i = (λ addon, Fragment (Some i) [addon]) <$> ads !! i)
    ∧ flat_map fragment_children kids = ads.
Proof.
  eexists. split; [reflexivity|]. simpl.
  split; [apply length_imap|]. split; [intros i; apply list_lookup_imap|].
  apply (unwrap_imap_fragments ads id).
Qed.

Lemma withApis_apis_fresh this (A : Apis) σ :
  apis (deref (options this) (withApis this A σ)) ∉ base.dom (arrays σ).
Proof. destruct this as [[] ads]. apply is_fresh. Qed.

Lemma withApis_array_at this (A : Apis) σ l :
  l ∈ base.dom (arrays σ) → array_at l (withApis this A σ) = array_at l σ.
Proof.
  intros Hl. destruct this as [[] ads]. unfold withApis, array_at; simpl.
  apply lookup_total_insert_ne. intros Heq.
  apply (is_fresh (base.dom (arrays σ))). by rewrite Heq.
Qed.

Lemma build_array_at_copy this σ :
  array_at (alloc (registered this σ) σ).1 (build this σ).2
  = registered this σ.
Proof. unfold array_at. rewrite build_arrays. apply array_at_alloc. Qed.

Lemma build_registered this σ :
  registered this (build this σ).2 = registered this σ.
Proof.
  unfold registered at 1. rewrite build_options.
  destruct (decide (apis (deref (options this) σ)
                    = (alloc (registered this σ) σ).1)) as [Heq|Hne].
  - rewrite Heq. apply build_array_at_copy.
  - unfold array_at at 1. rewrite build_arrays.
    by apply array_at_alloc_ne.
Qed.

(** C9.  [build] leaves the options, and the pairs they register, as
    they were.  The [apis] prop of the tree is a new array, one that did
    not exist before [build], holding the pairs registered when [build]
    ran; a later [withApis] changes what the builder registers, stores
    it in an array other than the tree's, and leaves the tree's array as
    it was. *)
Theorem build_snapshots_apis this (A : Apis) σ :
  let tree := (build this σ).1 in
  let σ1 := (build this σ).2 in
  let σ2 := withApis this A σ1 in
  deref (options this) σ1 = deref (options this) σ
  ∧ registered this σ1 = registered this σ
  ∧ ∃ l, tree_apis tree = Some l
      ∧ (l ∉ base.dom (arrays σ))
      ∧ (l ∈ base.dom (arrays σ1))
      ∧ array_at l σ1 = registered this σ
      ∧ array_at l σ2 = registered this σ
      ∧ apis (deref (options this) σ2) ≠ l
      ∧ registered this σ2
        = filter (λ e, e.1 ∉ A.*1) (registered this σ) ++ A.
Proof.
  cbv zeta.
  assert ((alloc (registered this σ) σ).1
          ∈ base.dom (arrays (build this σ).2)) as Hin.
  { rewrite build_arrays. apply alloc_allocated. }
  split; [apply build_options|]. split; [apply build_registered|].
  exists (alloc (registered this σ) σ).1.
  split; [by rewrite build_tree|].
  split; [apply alloc_fresh|]. split; [done|].
  split; [apply build_array_at_copy|]. split; [|split].
  - rewrite withApis_array_at by done. apply build_array_at_copy.
  - intros Heq. apply (withApis_apis_fresh this A (build this σ).2).
    by rewrite Heq.
  - by rewrite registered_withApis, build_registered.
Qed.

(** ** atPath and the route parameters *)

(** C6.  [atPath(p1)] then [atPath(p2)] leaves the state [atPath(p2)]
    alone leaves, so [build] returns the same tree and leaves the same
    state after either; the wildcard route parameter it registers is
    [p2]. *)
Theorem atPath_last_wins this (p1 p2 : string) σ :
  atPath this p2 (atPath this p1 σ) = atPath this p2 σ
  ∧ build this (atPath this p2 (atPath this p1 σ))
    = build this (atPath this p2 σ)
  ∧ ∃ params,
      params_after_build this (atPath this p2 (atPath this p1 σ))
      = Some params
      ∧ params !! "*" = Some (Js.Str p2).
Proof.
  assert (atPath this p2 (atPath this p1 σ) = atPath this p2 σ) as Heq
    by (by destruct this as [[] ads]).
  split; [done|]. split; [by rewrite Heq|].
  rewrite Heq, build_useParams. eexists. split; [done|].
  destruct this as [[] ads]. simpl. apply lookup_insert_eq.
Qed.

Lemma build_params_fields this σ :
  ∃ params,
    params_after_build this σ = Some params
    ∧ params !! "namespace"
      = Some (entityName_namespace (entity (deref (options this) σ)))
    ∧ params !! "kind"
      = Some (entityName_kind (entity (deref (options this) σ)))
    ∧ params !! "name"
      = Some (entityName_name (entity (deref (options this) σ)))
    ∧ params !! "*" = Some (Js.Str (path (deref (options this) σ))).
Proof.
  rewrite build_useParams. eexists. split; [done|].
  unfold entityName. repeat split; by simplify_map_eq.
Qed.

(** ** The entity identity *)

Lemma defaultEntity_namespace :
  defaultEntity?."metadata"?."namespace" = Js.Str "default".
Proof. reflexivity. Qed.

Lemma defaultEntity_kind : defaultEntity?."kind" = Js.Str "Component".
Proof. reflexivity. Qed.

Lemma defaultEntity_name :
  defaultEntity?."metadata"?."name" = Js.Str "docs".
Proof. reflexivity. Qed.

Lemma get_own v p : v?.p = default Js.Undefined (own v p).
Proof. by destruct v. Qed.

Lemma or_truthy_or_default (supplied : option Js.value) dflt :
  default Js.Undefined supplied ||| dflt = truthy_or_default supplied dflt.
Proof. by destruct supplied. Qed.

Lemma get_get_own v p q :
  v?.p?.q = default Js.Undefined (own v p ≫= λ m, own m q).
Proof. rewrite (get_own v?.p), (get_own v). by destruct (own v p). Qed.

Lemma entityName_namespace_rule e :
  entityName_namespace e
  = truthy_or_default (supplied_namespace e) (Js.Str "default").
Proof.
  unfold entityName_namespace.
  by rewrite defaultEntity_namespace, get_get_own, or_truthy_or_default.
Qed.

Lemma entityName_kind_rule e :
  entityName_kind e = truthy_or_default (supplied_kind e) (Js.Str "Component").
Proof.
  unfold entityName_kind.
  by rewrite defaultEntity_kind, get_own, or_truthy_or_default.
Qed.

Lemma entityName_name_rule e :
  entityName_name e = truthy_or_default (supplied_name e) (Js.Str "docs").
Proof.
  unfold entityName_name.
  by rewrite defaultEntity_name, get_get_own, or_truthy_or_default.
Qed.

Lemma withEntity_entity this e σ :
  entity (deref (options this) (withEntity this e σ)) = e.
Proof. by destruct this as [[] ads]. Qed.

(** C7 (refuted on the code, in its default).  For every builder and
    state, the route-parameter hook returns after [build] a mapping with
    the keys [namespace], [kind], [name] and [*] and no other: each
    identity field is the value the entity supplies when that value is
    truthy and its default otherwise, and [*] is the path of the
    options.  That path is not the builder's own: on the loaded module,
    where a build gives the empty string, [atPath('/foo')] on one builder
    makes the build of another builder, on which [atPath] was never
    called, register ['/foo'] under [*]. *)
Theorem build_route_params this σ :
  let o := deref (options this) σ in
  (∃ params,
     params_after_build this σ = Some params
     ∧ base.dom params = {[ "namespace"; "kind"; "name"; "*" ]}
     ∧ params !! "namespace"
       = Some (truthy_or_default (supplied_namespace (entity o))
                 (Js.Str "default"))
     ∧ params !! "kind"
       = Some (truthy_or_default (supplied_kind (entity o))
                 (Js.Str "Component"))
     ∧ params !! "name"
       = Some (truthy_or_default (supplied_name (entity o))
                 (Js.Str "docs"))
     ∧ params !! "*" = Some (Js.Str (path o)))
  ∧ let b1 := buildAddonsInTechDocs [] in
    let b2 := buildAddonsInTechDocs [Component "GiveFeedback"] in
    b1 ≠ b2
    ∧ (params_after_build b2 loaded ≫= (.!! "*"))
      = Some (Js.Str EmptyString)
    ∧ (params_after_build b2 (run [(b1, call_atPath "/foo")] loaded)
         ≫= (.!! "*"))
      = Some (Js.Str "/foo").
Proof.
  cbv zeta. split; [|by repeat split].
  destruct (build_params_fields this σ)
    as (params & Hparams & Hns & Hkind & Hname & Hpath).
  exists params. split; [done|]. split.
  { rewrite build_useParams in Hparams. injection Hparams as <-.
    unfold entityName. rewrite !dom_insert_L, dom_empty_L. set_solver. }
  by rewrite Hns, Hkind, Hname, entityName_namespace_rule,
    entityName_kind_rule, entityName_name_rule.
Qed.

(** C3, as it is worded, fails: an entity that supplies the empty string
    as its kind does not keep it.  [build] resolves the kind of
    [{ kind: '', metadata: { name: 'x' } }] to ['Component']. *)
Lemma identity_keeps_supplied_fails :
  supplied_kind entity_empty_kind = Some (Js.Str EmptyString)
  ∧ ¬ identity_follows kept_or_default
        (buildAddonsInTechDocs []) entity_empty_kind loaded.
Proof.
  split; [reflexivity|].
  intros (params & Hparams & _ & Hkind & _).
  vm_compute in Hparams. injection Hparams as <-.
  vm_compute in Hkind. discriminate.
Qed.

(** C3, amended.  For every entity given to [withEntity], [build]
    resolves each of namespace, kind and name on its own: a field that is
    missing takes its default (['default'], ['Component'], ['docs']), a
    field supplied with a truthy value keeps it, and a field supplied
    with a falsy value takes its default. *)
Theorem identity_field_by_field this e σ :
  identity_follows truthy_or_default this e σ.
Proof.
  destruct (build_params_fields this (withEntity this e σ))
    as (params & Hparams & Hns & Hkind & Hname & _).
  rewrite withEntity_entity in Hns, Hkind, Hname.
  exists params. split; [done|].
  by rewrite Hns, Hkind, Hname, entityName_namespace_rule,
    entityName_kind_rule, entityName_name_rule.
Qed.

(** C10.  A field of the entity that is present with a falsy value, the
    empty string among them, resolves to its default: ['default'] for the
    namespace, ['Component'] for the kind, ['docs'] for the name. *)
Theorem falsy_field_takes_default this e σ v :
  Js.truthy v = false →
  ∃ params,
    params_after_build this (withEntity this e σ) = Some params
    ∧ (supplied_namespace e = Some v →
       params !! "namespace" = Some (Js.Str "default"))
    ∧ (supplied_kind e = Some v →
       params !! "kind" = Some (Js.Str "Component"))
    ∧ (supplied_name e = Some v →
       params !! "name" = Some (Js.Str "docs")).
Proof.
  intros Hv.
  destruct (build_params_fields this (withEntity this e σ))
    as (params & Hparams & Hns & Hkind & Hname & _).
  rewrite withEntity_entity in Hns, Hkind, Hname.
  exists params. split; [done|].
  repeat split; intros Hs.
  - rewrite Hns, entityName_namespace_rule, Hs. simpl. by rewrite Hv.
  - rewrite Hkind, entityName_kind_rule, Hs. simpl. by rewrite Hv.
  - rewrite Hname, entityName_name_rule, Hs. simpl. by rewrite Hv.
Qed.

(** C10, at the entity whose three fields are the empty string. *)
Lemma falsy_field_takes_default_witness :
  Js.truthy (Js.Str EmptyString) = false
  ∧ ∃ params,
      params_after_build (buildAddonsInTechDocs [])
        (withEntity (buildAddonsInTechDocs []) entity_all_empty loaded)
      = Some params
      ∧ params !! "namespace" = Some (Js.Str "default")
      ∧ params !! "kind" = Some (Js.Str "Component")
      ∧ params !! "name" = Some (Js.Str "docs").
Proof.
  split; [reflexivity|].
  destruct (falsy_field_takes_default (buildAddonsInTechDocs [])
              entity_all_empty loaded (Js.Str EmptyString) eq_refl)
    as (params & Hparams & Hns & Hkind & Hname).
  exists params. split; [exact Hparams|].
  split; [apply Hns; reflexivity|].
  split; [apply Hkind; reflexivity|apply Hname; reflexivity].
Defined.

(** ** The metadata hook *)

(** C5 (refuted on the code).  On a builder of the freshly loaded module,
    with [withMetadata] never called, [build] registers
    [{ loading: false, error: undefined, value: {} }]: the options start
    with [metadata: {}], which is truthy, so [||] never reaches
    [defaultMetadata], and the value has neither a site name nor a site
    description. *)
Theorem build_unset_metadata_is_empty_object (ads : list ReactElement) :
  let this := buildAddonsInTechDocs ads in
  useTechDocsMetadata (mocks (build this loaded).2)
  = Some {| loading := false; error := Js.Undefined; value := Js.obj [] |}
  ∧ Js.obj [] ≠ defaultMetadata
  ∧ (Js.obj [])?."site_name" = Js.Undefined
  ∧ (Js.obj [])?."site_description" = Js.Undefined
  ∧ defaultMetadata?."site_name" = Js.Str "Tech Docs"
  ∧ defaultMetadata?."site_description" = Js.Str "Tech Docs".
Proof.
  repeat split. intros Heq.
  apply (f_equal (λ v, v?."site_name")) in Heq. discriminate.
Qed.

(** ** render *)

Lemma getByTestId_none document id :
  queryAllByTestId id document = [] →
  getByTestId document id = Throw "Unable to find an element by data-testid".
Proof. unfold getByTestId. by intros ->. Qed.

(** C2 (refuted on the code).  When the mounted document has no element
    with the test identifier [techdocs-native-shadowroot], [render] does
    not return a surface: [getByTestId] throws, and the optional chaining
    on its result is never reached. *)
Theorem render_without_host_throws
    (mount : ReactElement → State → Node) this σ :
  queryAllByTestId "techdocs-native-shadowroot"
    (mount (build this σ).1 (build this σ).2) = [] →
  (render mount this σ).1 = Throw "Unable to find an element by data-testid"
  ∧ ∀ surface, (render mount this σ).1 ≠ Return surface.
Proof.
  intros Hnone. unfold render.
  destruct (build this σ) as [tree σ1]; simpl in *.
  rewrite (getByTestId_none _ _ Hnone). by split.
Qed.

(** C2, at the empty addon list on the loaded module, mounted as a
    document with no host. *)
Lemma render_without_host_throws_witness :
  queryAllByTestId "techdocs-native-shadowroot" document_without_host = []
  ∧ (render mount_without_host (buildAddonsInTechDocs []) loaded).1
    = Throw "Unable to find an element by data-testid".
Proof.
  split; [reflexivity|].
  apply (render_without_host_throws mount_without_host
           (buildAddonsInTechDocs []) loaded).
  reflexivity.
Defined.

(** ** More on withApis *)

Section Filters.

Implicit Types (l A : list (nat * nat)) (refs : list nat) (r : nat).

Lemma filter_ref_absent r l : r ∉ l.*1 → filter (λ e, e.1 = r) l = [].
Proof.
  induction l as [|e l IH]; intros Hr; [done|].
  rewrite fmap_cons, not_elem_of_cons in Hr. destruct Hr as [Hne Hr].
  rewrite filter_cons_False by (intros Heq; by apply Hne). by apply IH.
Qed.

Lemma filter_ref_dropped r refs l :
  r ∈ refs → filter (λ e, e.1 = r) (filter (λ e, e.1 ∉ refs) l) = [].
Proof.
  intros Hr. apply filter_ref_absent. intros Hin.
  apply list_elem_of_fmap in Hin as (e & -> & He).
  apply list_elem_of_filter in He as [He _]. by apply He.
Qed.

Lemma filter_ref_kept r refs l :
  r ∉ refs →
  filter (λ e, e.1 = r) (filter (λ e, e.1 ∉ refs) l)
  = filter (λ e, e.1 = r) l.
Proof.
  intros Hr. induction l as [|e l IH]; [done|].
  destruct (decide (e.1 = r)) as [Heq|Hne].
  - rewrite (filter_cons_True (λ e, e.1 ∉ refs)) by (by rewrite Heq).
    rewrite !filter_cons_True by done. by rewrite IH.
  - rewrite (filter_cons_False (λ e, e.1 = r) _ l) by done.
    rewrite <- IH. rewrite (filter_cons (λ e, e.1 ∉ refs)).
    case_decide; [|done]. by rewrite filter_cons_False.
Qed.

Lemma filter_not_in_own_refs A : filter (λ e, e.1 ∉ A.*1) A = [].
Proof.
  generalize (A.*1) (λ e, list_elem_of_fmap_2 fst A e). intros refs.
  induction A as [|e A IH]; intros Hin; [done|].
  rewrite filter_cons_False.
  - apply IH. intros e' He'. apply Hin. by right.
  - intros Hnot. apply Hnot, Hin. by left.
Qed.

Lemma filter_not_in_idemp refs l :
  filter (λ e, e.1 ∉ refs) (filter (λ e, e.1 ∉ refs) l)
  = filter (λ e, e.1 ∉ refs) l.
Proof.
  induction l as [|e l IH]; [done|].
  rewrite (filter_cons _ e l). case_decide; [|done].
  rewrite filter_cons_True by done. by rewrite IH.
Qed.

Lemma filter_not_in_nil l : filter (λ e, e.1 ∉ @nil nat) l = l.
Proof.
  induction l as [|e l IH]; [done|].
  rewrite filter_cons_True by apply not_elem_of_nil. by rewrite IH.
Qed.

End Filters.

(** X1.  After [withApis(A)], the pairs registered under a ref are those
    [A] gives it when [A] mentions the ref, and those registered before
    when it does not. *)
Theorem withApis_by_ref this (A : Apis) (r : nat) σ :
  filter (λ e, e.1 = r) (registered this (withApis this A σ))
  = if decide (r ∈ A.*1)
    then filter (λ e, e.1 = r) A
    else filter (λ e, e.1 = r) (registered this σ).
Proof.
  rewrite registered_withApis, filter_app. case_decide as Hr.
  - by rewrite filter_ref_dropped.
  - by rewrite filter_ref_kept, (filter_ref_absent r A), app_nil_r.
Qed.

(** X2.  [withApis(A)] a second time registers what the first
    registered; and [withApis([])] registers what was registered. *)
Theorem withApis_again this (A : Apis) σ :
  registered this (withApis this A (withApis this A σ))
  = registered this (withApis this A σ)
  ∧ registered this (withApis this [] σ) = registered this σ.
Proof.
  split.
  - rewrite !registered_withApis, filter_app.
    by rewrite filter_not_in_idemp, filter_not_in_own_refs, app_nil_r.
  - by rewrite registered_withApis, app_nil_r, filter_not_in_nil.
Qed.

(** ** Programs *)

Lemma run_snoc calls c σ : run (calls ++ [c]) σ = exec c (run calls σ).
Proof. unfold run. by rewrite foldl_snoc. Qed.

Lemma run_cons c calls σ : run (c :: calls) σ = run calls (exec c σ).
Proof. reflexivity. Qed.

(** Builders hold the same reference, so they register the same pairs. *)
Lemma registered_any this that σ : registered this σ = registered that σ.
Proof. by destruct this as [[] ?], that as [[] ?]. Qed.

(** What a call does to the pairs any builder registers. *)
Lemma registered_exec this c σ :
  registered this (exec c σ)
  = match c.2 with
    | call_withApis a =>
        filter (λ e, e.1 ∉ a.*1) (registered this σ) ++ a
    | _ => registered this σ
    end.
Proof.
  destruct c as [that []]; simpl;
    try by destruct this as [[] ?], that as [[] ?].
  - rewrite !(registered_any this that). apply registered_withApis.
  - rewrite !(registered_any this that). apply build_registered.
Qed.

Lemma merge_keeps_refs_distinct (l A : list (nat * nat)) :
  NoDup l.*1 → NoDup A.*1 →
  NoDup (filter (λ e, e.1 ∉ A.*1) l ++ A).*1.
Proof.
  intros Hl HA. rewrite fmap_app. apply NoDup_app. split; [|split; [|done]].
  - apply (sublist_NoDup _ (l.*1)); [done|].
    apply fmap_sublist, sublist_filter.
  - intros r Hr. apply list_elem_of_fmap in Hr as (e & -> & He).
    by apply list_elem_of_filter in He as [He _].
Qed.

(** X3.  Distinct refs are an invariant: when the refs registered are
    pairwise distinct and every [withApis] call of a program passes
    pairwise distinct refs, the refs registered after the program are
    pairwise distinct. *)
Theorem run_keeps_refs_distinct this calls σ :
  NoDup (registered this σ).*1 →
  Forall (λ c, distinct_refs c.2) calls →
  NoDup (registered this (run calls σ)).*1.
Proof.
  intros Hσ Hcalls. revert σ Hσ.
  induction Hcalls as [|c calls Hc _ IH]; intros σ Hσ; [done|].
  rewrite run_cons. apply IH. rewrite registered_exec.
  destruct c as [that []]; simpl in *; try done.
  by apply merge_keeps_refs_distinct.
Qed.

(** X3, at a program on the loaded module that registers ref [2] twice,
    in two calls. *)
Lemma run_keeps_refs_distinct_witness :
  let this := buildAddonsInTechDocs [] in
  let calls := [(this, call_withApis [(1, 10); (2, 20)]);
                (this, call_build);
                (buildAddonsInTechDocs [Text "a"], call_withApis [(2, 21)])] in
  registered this (run calls loaded) = [(1, 10); (2, 21)]
  ∧ NoDup (registered this (run calls loaded)).*1.
Proof.
  intros this calls. split; [reflexivity|].
  apply (run_keeps_refs_distinct this calls loaded).
  - vm_compute. constructor.
  - repeat (apply Forall_cons; split); try apply Forall_nil; simpl;
      try exact I; by apply (bool_decide_unpack _).
Defined.

(** X4.  After any program, on any builders, the options hold in each
    field the argument of the last call that assigns it, and the value
    from before the program when no call does; [componentId] is never
    assigned. *)
Theorem run_fields_last_call calls σ :
  let o := defaultOptions σ in
  let o' := defaultOptions (run calls σ) in
  dom o' = default (dom o) (last_arg arg_withDom calls)
  ∧ metadata o' = default (metadata o) (last_arg arg_withMetadata calls)
  ∧ entity o' = default (entity o) (last_arg arg_withEntity calls)
  ∧ readerPage o'
    = from_option Some (readerPage o) (last_arg arg_withReaderPage calls)
  ∧ path o' = default (path o) (last_arg arg_atPath calls)
  ∧ componentId o' = componentId o.
Proof.
  cbv zeta. induction calls as [|c calls IH] using rev_ind; [done|].
  rewrite run_snoc. unfold last_arg in *. rewrite !omap_app, !last_app.
  destruct IH as (Hd & Hm & He & Hr & Hp & Hc).
  destruct c as [[[] ads] []]; simpl; by rewrite ?Hd, ?Hm, ?He, ?Hr, ?Hp, ?Hc.
Qed.

Lemma exec_array_at c σ (l : loc) :
  l ∈ base.dom (arrays σ) →
  l ∈ base.dom (arrays (exec c σ)) ∧ array_at l (exec c σ) = array_at l σ.
Proof.
  intros Hl. destruct c as [that []]; unfold exec; cbn [fst snd];
    try by destruct that as [[] ?].
  - split; [|by apply withApis_array_at].
    destruct that as [[] ?]. unfold withApis; simpl.
    rewrite dom_insert_L. set_solver.
  - rewrite build_arrays. split.
    + unfold alloc; simpl. rewrite dom_insert_L. set_solver.
    + unfold array_at at 1. rewrite build_arrays.
      apply array_at_alloc_ne. intros ->. by eapply alloc_fresh.
Qed.

Lemma build_array_at this σ (l : loc) :
  l ∈ base.dom (arrays σ) → array_at l (build this σ).2 = array_at l σ.
Proof. intros Hl. exact (proj2 (exec_array_at (this, call_build) σ l Hl)). Qed.

(** X5.  No call writes to an array that exists: through any program an
    allocated array stays allocated with the pairs it has.  The array of
    a built tree is such an array, whatever is called afterwards. *)
Theorem run_keeps_arrays calls σ (l : loc) :
  l ∈ base.dom (arrays σ) →
  l ∈ base.dom (arrays (run calls σ))
  ∧ array_at l (run calls σ) = array_at l σ.
Proof.
  revert σ. induction calls as [|c calls IH]; intros σ Hl; [done|].
  rewrite run_cons. destruct (exec_array_at c σ l Hl) as [Hl' <-].
  by apply IH.
Qed.

(** X5, at the array of a tree built on the loaded module, after the
    builder registers a pair and builds again. *)
Lemma run_keeps_arrays_witness :
  let this := buildAddonsInTechDocs [] in
  let σ := (build this (withApis this [(1, 10)] loaded)).2 in
  let calls := [(this, call_withApis [(1, 11); (2, 20)]);
                (this, call_build)] in
  tree_apis (build this (withApis this [(1, 10)] loaded)).1 = Some 3%positive
  ∧ array_at 3%positive (run calls σ) = [(1, 10)].
Proof.
  intros this σ calls. split; [reflexivity|].
  transitivity (array_at 3%positive σ); [|reflexivity].
  apply (run_keeps_arrays calls σ 3%positive).
  by apply (bool_decide_unpack _).
Defined.

(** X6.  Each [build] copies: two builds, by any two builders, give
    trees whose [apis] props are two arrays, and both hold the pairs
    registered when the first ran. *)
Theorem build_twice_copies this that σ :
  let σ1 := (build this σ).2 in
  let σ2 := (build that σ1).2 in
  ∃ l1 l2 : loc,
    tree_apis (build this σ).1 = Some l1
    ∧ tree_apis (build that σ1).1 = Some l2
    ∧ l1 ≠ l2
    ∧ array_at l1 σ2 = registered this σ
    ∧ array_at l2 σ2 = registered this σ.
Proof.
  cbv zeta.
  assert ((alloc (registered this σ) σ).1
          ∈ base.dom (arrays (build this σ).2)) as Hin.
  { rewrite build_arrays. apply alloc_allocated. }
  exists (alloc (registered this σ) σ).1,
         (alloc (registered that (build this σ).2) (build this σ).2).1.
  split; [by rewrite build_tree|]. split; [by rewrite build_tree|].
  split; [|split].
  - intros Heq. rewrite Heq in Hin. by eapply alloc_fresh.
  - rewrite (build_array_at that _ _ Hin). apply build_array_at_copy.
  - rewrite build_array_at_copy, (registered_any that this).
    apply build_registered.
Qed.

(** X7.  Calls that assign different fields of the options commute, on
    the same builder or on two: the state after them is the same in
    either order. *)
Theorem calls_on_different_fields_commute c1 c2 σ :
  is_Some (assigns c1.2) → is_Some (assigns c2.2) →
  assigns c1.2 ≠ assigns c2.2 →
  exec c2 (exec c1 σ) = exec c1 (exec c2 σ).
Proof.
  destruct c1 as [[[] ads1] c1], c2 as [[[] ads2] c2].
  intros [f1 H1] [f2 H2] Hne.
  destruct c1, c2; simpl in *; try done; try by destruct Hne.
Qed.

(** X7, at [withApis] on one builder and [atPath] on another. *)
Lemma calls_on_different_fields_commute_witness :
  let c1 := (buildAddonsInTechDocs [], call_withApis [(1, 10)]) in
  let c2 := (buildAddonsInTechDocs [Text "a"], call_atPath "/foo") in
  exec c2 (exec c1 loaded) = exec c1 (exec c2 loaded).
Proof.
  intros c1 c2.
  apply (calls_on_different_fields_commute c1 c2 loaded); simpl.
  - by eexists.
  - by eexists.
  - discriminate.
Defined.

Lemma exec_keeps_mocks c σ :
  is_Some (assigns c.2) → mocks (exec c σ) = mocks σ.
Proof.
  destruct c as [[[] ads] []]; simpl; try done.
Qed.

(** X8.  The configuration calls leave the mocked hooks alone: through a
    program without [build] the hooks return what they returned before,
    so a call made after [build] shows in no hook until [build] runs
    again. *)
Theorem config_calls_keep_mocks calls σ :
  Forall (λ c, is_Some (assigns c.2)) calls →
  mocks (run calls σ) = mocks σ.
Proof.
  intros H. revert σ. induction H as [|c calls Hc _ IH]; intros σ; [done|].
  rewrite run_cons, IH. by apply exec_keeps_mocks.
Qed.

(** X8, at [atPath] and [withEntity] after a [build] on the loaded
    module: the route parameters still hold the empty path. *)
Lemma config_calls_keep_mocks_witness :
  let this := buildAddonsInTechDocs [] in
  let σ := (build this loaded).2 in
  let calls := [(this, call_atPath "/foo");
                (this, call_withEntity entity_empty_kind)] in
  (useParams (mocks (run calls σ)) ≫= (.!! "*"))
  = Some (Js.Str EmptyString).
Proof.
  intros this σ calls.
  rewrite (config_calls_keep_mocks calls σ).
  - reflexivity.
  - repeat (apply Forall_cons; split); try apply Forall_nil; by eexists.
Defined.

(** X9.  What [build] mocks is a function of the options alone: two
    states with the same options give the four hooks the same values,
    whichever builders build, with whatever addons, whatever the hooks
    returned before. *)
Theorem build_mocks_from_options this that σ σ' :
  defaultOptions σ = defaultOptions σ' →
  mocks (build this σ).2 = mocks (build that σ').2.
Proof.
  intros Heq. destruct this as [[] ?], that as [[] ?].
  unfold build; simpl. by rewrite Heq.
Qed.

(** X9, at the loaded module and the state a first build leaves. *)
Lemma build_mocks_from_options_witness :
  let this := buildAddonsInTechDocs [] in
  let that := buildAddonsInTechDocs [Component "GiveFeedback"] in
  mocks (build this loaded).2 = mocks (build that (build this loaded).2).2.
Proof.
  intros this that.
  apply (build_mocks_from_options this that loaded (build this loaded).2).
  reflexivity.
Defined.

(** ** More on the hooks *)

Lemma falsy_supplies_nothing v p : Js.truthy v = false → own v p = None.
Proof. by destruct v. Qed.

Lemma or_truthy a b : Js.truthy b = true → Js.truthy (a ||| b) = true.
Proof. intros Hb. unfold Js.or. by destruct (Js.truthy a) eqn:Ha. Qed.

Lemma build_hooks this σ :
  useEntityMetadata (mocks (build this σ).2)
  = Some {| loading := false; error := Js.Undefined;
            value := entity (deref (options this) σ) ||| defaultEntity |}
  ∧ useTechDocsMetadata (mocks (build this σ).2)
    = Some {| loading := false; error := Js.Undefined;
              value := metadata (deref (options this) σ)
                       ||| defaultMetadata |}.
Proof. done. Qed.

Lemma withMetadata_metadata this m σ :
  metadata (deref (options this) (withMetadata this m σ)) = m.
Proof. by destruct this as [[] ads]. Qed.

(** X10.  A falsy fixture ([null], [undefined], [false], [0], the empty
    string) is replaced as a whole: given to [withEntity], the entity
    hook gets [defaultEntity] and the route parameters the identity
    default / Component / docs; given to [withMetadata], the metadata
    hook gets [defaultMetadata]. *)
Theorem falsy_fixture_takes_whole_default this v σ :
  Js.truthy v = false →
  useEntityMetadata (mocks (build this (withEntity this v σ)).2)
  = Some {| loading := false; error := Js.Undefined;
            value := defaultEntity |}
  ∧ identity_follows (λ _ dflt, dflt) this v σ
  ∧ useTechDocsMetadata (mocks (build this (withMetadata this v σ)).2)
    = Some {| loading := false; error := Js.Undefined;
              value := defaultMetadata |}.
Proof.
  intros Hv. split; [|split].
  - rewrite (proj1 (build_hooks _ _)), withEntity_entity.
    unfold Js.or. by rewrite Hv.
  - destruct (build_params_fields this (withEntity this v σ))
      as (params & Hparams & Hns & Hkind & Hname & _).
    rewrite withEntity_entity in Hns, Hkind, Hname.
    exists params. split; [done|].
    rewrite Hns, Hkind, Hname, entityName_namespace_rule,
      entityName_kind_rule, entityName_name_rule.
    unfold supplied_namespace, supplied_kind, supplied_name.
    by rewrite !(falsy_supplies_nothing v _ Hv).
  - rewrite (proj2 (build_hooks _ _)), withMetadata_metadata.
    unfold Js.or. by rewrite Hv.
Qed.

(** X10, at [null]. *)
Lemma falsy_fixture_takes_whole_default_witness :
  let this := buildAddonsInTechDocs [] in
  (value <$> useEntityMetadata
               (mocks (build this (withEntity this Js.Null loaded)).2))
  = Some defaultEntity
  ∧ (value <$> useTechDocsMetadata
                 (mocks (build this (withMetadata this Js.Null loaded)).2))
    = Some defaultMetadata.
Proof.
  intros this.
  destruct (falsy_fixture_takes_whole_default this Js.Null loaded eq_refl)
    as (He & _ & Hm).
  split; [by rewrite He|by rewrite Hm].
Defined.

(** X11.  A truthy entity reaches the entity hook as it is, with no
    default merged in: a field it lacks is [undefined] in the hook's
    value although the route parameters give that field its default. *)
Theorem truthy_entity_reaches_hook_unmerged this e σ :
  Js.truthy e = true →
  ∃ params,
    useEntityMetadata (mocks (build this (withEntity this e σ)).2)
    = Some {| loading := false; error := Js.Undefined; value := e |}
    ∧ params_after_build this (withEntity this e σ) = Some params
    ∧ (supplied_namespace e = None →
       e?."metadata"?."namespace" = Js.Undefined
       ∧ params !! "namespace" = Some (Js.Str "default"))
    ∧ (supplied_kind e = None →
       e?."kind" = Js.Undefined
       ∧ params !! "kind" = Some (Js.Str "Component"))
    ∧ (supplied_name e = None →
       e?."metadata"?."name" = Js.Undefined
       ∧ params !! "name" = Some (Js.Str "docs")).
Proof.
  intros He.
  destruct (build_params_fields this (withEntity this e σ))
    as (params & Hparams & Hns & Hkind & Hname & _).
  rewrite withEntity_entity in Hns, Hkind, Hname.
  exists params. split.
  { rewrite (proj1 (build_hooks _ _)), withEntity_entity.
    unfold Js.or. by rewrite He. }
  split; [done|]. repeat split.
  - rewrite get_get_own. by fold (supplied_namespace e); rewrite H.
  - by rewrite Hns, entityName_namespace_rule, H.
  - rewrite get_own. by fold (supplied_kind e); rewrite H.
  - by rewrite Hkind, entityName_kind_rule, H.
  - rewrite get_get_own. by fold (supplied_name e); rewrite H.
  - by rewrite Hname, entityName_name_rule, H.
Qed.

(** X11, at the entity the loaded module starts with, [{}]. *)
Lemma truthy_entity_reaches_hook_unmerged_witness :
  let this := buildAddonsInTechDocs [] in
  ∃ params,
    (value <$> useEntityMetadata
                 (mocks (build this (withEntity this (Js.obj []) loaded)).2))
    = Some (Js.obj [])
    ∧ params_after_build this (withEntity this (Js.obj []) loaded)
      = Some params
    ∧ (Js.obj [])?."kind" = Js.Undefined
    ∧ params !! "kind" = Some (Js.Str "Component").
Proof.
  intros this.
  destruct (truthy_entity_reaches_hook_unmerged this (Js.obj []) loaded
              eq_refl) as (params & Hhook & Hparams & _ & Hkind & _).
  exists params. split; [by rewrite Hhook|]. split; [exact Hparams|].
  apply Hkind. reflexivity.
Defined.

(** X12.  Whatever the entity, the namespace, kind and name [build] gives
    the route-parameter hook are truthy: never [undefined], [null] or
    the empty string. *)
Theorem route_identity_is_truthy this σ :
  ∃ params,
    params_after_build this σ = Some params
    ∧ ∀ k, k ∈ ["namespace"; "kind"; "name"] →
        ∃ v, params !! k = Some v ∧ Js.truthy v = true.
Proof.
  destruct (build_params_fields this σ)
    as (params & Hparams & Hns & Hkind & Hname & _).
  exists params. split; [done|]. intros k Hk.
  rewrite !elem_of_cons, elem_of_nil in Hk.
  destruct Hk as [->|[->|[->|[]]]]; eexists; (split; [eassumption|]).
  - unfold entityName_namespace. apply or_truthy.
    by rewrite defaultEntity_namespace.
  - unfold entityName_kind. apply or_truthy. by rewrite defaultEntity_kind.
  - unfold entityName_name. apply or_truthy. by rewrite defaultEntity_name.
Qed.

(** ** More on render *)




(** The query leaves the container out and normalizes the attribute: a
    [body] that carries the identifier itself is no match, and an
    attribute padded with white space is one. *)
Lemma queryAllByTestId_container_and_padding :
  queryAllByTestId "techdocs-native-shadowroot"
    (Element "body" (Some "techdocs-native-shadowroot") None []) = []
  ∧ queryAllByTestId "techdocs-native-shadowroot"
      (Element "body" None None
         [Element "div" (Some "  techdocs-native-shadowroot ") None []])
    = [Element "div" (Some "  techdocs-native-shadowroot ") None []].
Proof. by split. Qed.



